(** * Verification of the version normaliser and the package-line parser of
    plugin-apt-versions ([internal/packages.go]).

    Go strings are byte strings; they are modelled as [String.string]
    (a list of [ascii], i.e. of bytes).  The loops of the source that
    range over runes ([for j, char := range part]) only ever stop at the
    first byte that is not an ASCII digit (resp. not ['0']): every byte
    before it is an ASCII character, hence a rune of its own, and the rune
    that stops the loop starts exactly at that byte.  So a byte-level
    search for the first index gives the same [j] as the Go loop. *)

From Stdlib Require Import Ascii String List ZArith.
From stdpp Require Import base gmap strings list pretty.
Import ListNotations.

Local Open Scope list_scope.

(* ------------------------------------------------------------------ *)
(** ** Go string primitives used by the source *)

Module GoStrings.

(** [s[n:]] *)
Fixpoint str_drop (n : nat) (s : string) : string :=
  match n, s with
  | O, _ => s
  | S n', EmptyString => EmptyString
  | S n', String _ s' => str_drop n' s'
  end.

(** [s[:n]] *)
Fixpoint str_take (n : nat) (s : string) : string :=
  match n, s with
  | O, _ => EmptyString
  | S n', EmptyString => EmptyString
  | S n', String c s' => String c (str_take n' s')
  end.

(** Byte index of the first byte satisfying [p], if any. *)
Fixpoint find_index (p : ascii -> bool) (s : string) : option nat :=
  match s with
  | EmptyString => None
  | String c s' =>
      if p c then Some O
      else match find_index p s' with
           | Some i => Some (S i)
           | None => None
           end
  end.

(** [strings.Index(s, string(c))] for a one-byte separator
    ([None] stands for [-1]). *)
Definition index (s : string) (c : ascii) : option nat :=
  find_index (fun d => Ascii.eqb d c) s.

(** [strings.IndexAny(s, chars)] for ASCII [chars]. *)
Definition index_any (s : string) (chars : list ascii) : option nat :=
  find_index (fun d => existsb (Ascii.eqb d) chars) s.

(** [strings.Split(s, sep)] for a one-byte separator: cut at every
    occurrence; [n] occurrences give [n+1] pieces, [""] gives [[""]]. *)
Fixpoint split (s : string) (sep : ascii) : list string :=
  match s with
  | EmptyString => [EmptyString]
  | String c s' =>
      if Ascii.eqb c sep then EmptyString :: split s' sep
      else match split s' sep with
           | h :: t => String c h :: t
           | [] => [String c EmptyString]
           end
  end.

(** [strings.Join(elems, sep)] for a one-byte separator. *)
Fixpoint join (elems : list string) (sep : ascii) : string :=
  match elems with
  | [] => EmptyString
  | [x] => x
  | x :: rest => String.append x (String sep (join rest sep))
  end.

End GoStrings.

Import GoStrings.

(* ------------------------------------------------------------------ *)
(** ** [getVersion] *)

Definition is_digit (c : ascii) : bool :=
  (* [char >= '0' && char <= '9'] *)
  ((48 <=? nat_of_ascii c) && (nat_of_ascii c <=? 57))%nat.

(** Lines 79-82: drop everything up to and including the first [':']. *)
Definition strip_epoch (version : string) : string :=
  match index version ":"%char with
  | Some colonIndex => str_drop (S colonIndex) version
  | None => version
  end.

(** Lines 84-87: cut at the first of ['-'], ['+'], ['~']. *)
Definition strip_suffix (version : string) : string :=
  match index_any version ["-"; "+"; "~"]%char with
  | Some dashIndex => str_take dashIndex version
  | None => version
  end.

(** Lines 93-102, one iteration: at the first non-digit [j],
    [parts[i] = part[:j]]; otherwise the part is kept. *)
Definition keep_digits (part : string) : string :=
  match find_index (fun c => negb (is_digit c)) part with
  | Some j => str_take j part
  | None => part
  end.

(** Lines 105-112, one iteration: at the first byte [j] that is not
    ['0'], [parts[i] = part[j:]]; when every byte is ['0'] (or the part
    is empty) the loop never breaks and the part is kept. *)
Definition strip_leading_zeros (part : string) : string :=
  match find_index (fun c => negb (Ascii.eqb c "0"%char)) part with
  | Some j => str_drop j part
  | None => part
  end.

(** Lines 115-121. *)
Definition fix_arity (parts : list string) : list string :=
  if (length parts <? 3)%nat then parts ++ repeat "0"%string (3 - length parts)
  else if (3 <? length parts)%nat then firstn 3 parts
  else parts.

Definition getVersion (version : string) : string :=
  let version := strip_epoch version in
  let version := strip_suffix version in
  let parts := split version "." in
  let parts := map keep_digits parts in
  let parts := map strip_leading_zeros parts in
  let parts := fix_arity parts in
  join parts ".".


(* ------------------------------------------------------------------ *)
(** ** Logger, steps, [getPackages] and [GetInstalledPackages] *)

(** The [hclog.Logger] the functions write to, as an output list. *)
Inductive level := LDebug | LWarn | LError.
Definition log_entry : Type := (level * string)%type.

(** [proto.Step]; [Remarks] is a [*string] ([StringAddressed]). *)
Record Step := mkStep {
  step_title : string;
  step_description : string;
  step_remarks : option string
}.

Local Open Scope string_scope.

(** Lines 52-67, one iteration of the loop over the lines, on the map
    under construction and the log written so far. *)
Definition process_line (st : gmap string string * list log_entry) (line : string)
    : gmap string string * list log_entry :=
  let '(packages, logs) := st in
  if (String.length line =? 0)%nat then st
  else
    match split line " "%char with
    | [packageName; rawVersion] =>
        (<[packageName := getVersion rawVersion]> packages, logs)
    | _ =>
        (packages,
         app logs [(LWarn, "unexpected number of parts in package line, cannot process: " ++ line)])
    end.

Definition parse_lines (packageData : string) : gmap string string * list log_entry :=
  fold_left process_line (split packageData "010"%char) (∅, []).

(** Lines 49-76: the map, the steps, and the log lines written. *)
Definition getPackages (packageData : string)
    : gmap string string * list Step * list log_entry :=
  let '(packages, logs) := parse_lines packageData in
  let step := {|
    step_title := "Retrieved all installed packages and normalised versions";
    step_description := "Retrieved all the installed packages and their versions on the host. The versions are all normalised to a standard format for comparison of the format `x.y.z` where `x`, `y` and `z` are all integers and intended to match the standard SemVer pattern of `major.minor.patch`.";
    step_remarks := Some ("Normalized " ++ pretty (N.of_nat (size packages)) ++ " package versions") |} in
  (packages, [step], logs).

(** The outcome of running [dpkg-query] through [exec.Command(...).Run()]:
    exit status and the two captured buffers.  [Run] returns a non-nil
    error exactly for a non-zero exit status; that error is an
    [*exec.ExitError] whose [Error()] text is ["exit status N"] (with
    [cmd.Stderr] set to a buffer, the error does not hold the stderr
    text). *)
Record ProcResult := mkProc {
  proc_exit : Z;
  proc_stdout : string;
  proc_stderr : string
}.

Definition run_error (r : ProcResult) : option string :=
  if Z.eqb (proc_exit r) 0 then None
  else Some ("exit status " ++ pretty (proc_exit r)).

Definition dpkg_command : string := "dpkg-query -W -f='${Package} ${Version}\n'".

Definition first_step : Step := {|
  step_title := "Get installed packages";
  step_description := "Get the list of installed package names and versions on the host using the `dpkg-query` command. This will be used to evaluate the versions of installed packages against the policies supplied.";
  step_remarks := Some "`dpkg-query -W -f='${Package} ${Version}'` is used to collect the installed packages and their versions." |}.

(** Lines 14-47.  The map result is [None] for Go's [nil] map; the error
    result is [None] for a [nil] error, otherwise its [Error()] text. *)
Definition GetInstalledPackages (r : ProcResult)
    : option (gmap string string) * list Step * option string * list log_entry :=
  let steps := [first_step] in
  let logs := [(LDebug, "RUNNING COMMAND: " ++ dpkg_command)] in
  match run_error r with
  | Some err =>
      let logs := if (0 <? String.length (proc_stderr r))%nat
                  then app logs [(LError, "stderr: " ++ proc_stderr r)] else logs in
      (None, steps, Some ("error running dpkg-query: " ++ err), logs)
  | None =>
      let logs := if (0 <? String.length (proc_stderr r))%nat
                  then app logs [(LWarn, "error found running dpkg-query, continuing as exited successfully: " ++ proc_stderr r)]
                  else logs in
      let '(packages, newSteps, plogs) := getPackages (proc_stdout r) in
      (Some packages, app steps newSteps, None, app logs plogs)
  end.

Definition e2e_text : string :=
  "wget 1.20.3" ++ String "010" "acl 2.3.2-1build1.1" ++ String "010" "".

(* ------------------------------------------------------------------ *)
(** ** Predicates on the shapes of strings *)

(** Every byte of [s] satisfies [q]. *)
Fixpoint str_forall (q : ascii -> bool) (s : string) : bool :=
  match s with
  | EmptyString => true
  | String c s' => q c && str_forall q s'
  end.

Definition all_digits (s : string) : bool := str_forall is_digit s.

(** Number of occurrences of the byte [c] in [s]. *)
Fixpoint count_char (c : ascii) (s : string) : nat :=
  match s with
  | EmptyString => O
  | String d s' => (if Ascii.eqb d c then 1 else 0) + count_char c s'
  end.

(** The string matches [^\d+$]. *)
Definition digits1 (s : string) : bool :=
  negb (String.eqb s "") && all_digits s.

(** The string matches [^\d+\.\d+\.\d+$]. *)
Definition matches_xyz (s : string) : bool :=
  match split s "."%char with
  | [a; b; c] => digits1 a && digits1 b && digits1 c
  | _ => false
  end.

(** A component without leading zero: ["0"] or a digit string whose first
    byte is not ['0']. *)
Definition no_leading_zero (s : string) : bool :=
  String.eqb s "0" ||
  (all_digits s && match s with
                   | String c _ => negb (Ascii.eqb c "0"%char)
                   | EmptyString => true
                   end).

(** A canonical version: three non-empty digit components without leading
    zeros, joined with ['.']. *)
Definition canonical (x : string) : Prop :=
  exists a b c, x = join [a; b; c] "."%char /\
    digits1 a = true /\ digits1 b = true /\ digits1 c = true /\
    no_leading_zero a = true /\ no_leading_zero b = true /\ no_leading_zero c = true.

(** A segment with no leading digit (empty, or starting with a non-digit). *)
Definition no_leading_digit (seg : string) : bool :=
  match seg with
  | EmptyString => true
  | String c _ => negb (is_digit c)
  end.

(** A line of the listing in which [name] stores an entry. *)
Definition names_entry (name line : string) : Prop :=
  exists v, split line " "%char = [name; v].

(** Every byte is an ASCII digit or ['.']. *)
Definition digits_or_dots (s : string) : bool :=
  str_forall (fun c => is_digit c || Ascii.eqb c "."%char) s.

(** A line holds no newline byte. *)
Definition no_nl (s : string) : Prop :=
  str_forall (fun c => negb (Ascii.eqb c "010"%char)) s = true.

(** A token of a line: neither a space nor a newline byte. *)
Definition token (s : string) : Prop :=
  str_forall (fun c => negb (Ascii.eqb c " "%char) && negb (Ascii.eqb c "010"%char)) s = true.

(** The map part of the loop over the lines, without the log. *)
Definition line_map (m : gmap string string) (line : string) : gmap string string :=
  (process_line (m, []) line).1.

Definition parsed_map (lines : list string) (m : gmap string string) : gmap string string :=
  fold_left line_map lines m.

(** Decimal value of a digit string, read left to right. *)
Fixpoint dec_acc (acc : N) (s : string) : N :=
  match s with
  | EmptyString => acc
  | String c s' => dec_acc (acc * 10 + N.of_nat (nat_of_ascii c - 48))%N s'
  end.

Definition dec_value (s : string) : N := dec_acc 0%N s.

(** A component is a run of zeros (possibly empty) or starts with a byte
    other than ['0']. *)
Definition zero_run_or_nonzero_head (s : string) : bool :=
  str_forall (fun c => Ascii.eqb c "0"%char) s ||
  match s with
  | String c _ => negb (Ascii.eqb c "0"%char)
  | EmptyString => true
  end.

(** No byte of [s] is one that [getVersion] cuts at: [':'], ['-'],
    ['+'], ['~']. *)
Definition plain (s : string) : bool :=
  str_forall (fun c => negb (existsb (Ascii.eqb c) [":"; "-"; "+"; "~"]%char)) s.

(** A line that [getPackages] skips with a warning: non-empty, and not two
    tokens. *)
Definition bad_line (line : string) : bool :=
  negb (String.length line =? 0)%nat && negb (length (split line " "%char) =? 2)%nat.

(** A line that stores an entry: exactly two space-separated tokens. *)
Definition good_line (line : string) : bool := (length (split line " "%char) =? 2)%nat.

Definition warning_of (line : string) : log_entry :=
  (LWarn, "unexpected number of parts in package line, cannot process: " ++ line).

(** The package names the good lines store, in order. *)
Definition line_names (lines : list string) : list string :=
  omap (fun line => match split line " "%char with
                    | [n; _] => Some n
                    | _ => None
                    end) lines.

(** The listing of the repository's test [TestGetMultiplePackagesFromRealExamples]. *)
Definition real_examples : list string :=
  ["accountsservice 23.13.9-2ubuntu6"; "acl 2.3.2-1build1.1"; "adduser 3.137ubuntu1";
   "adwaita-icon-theme 46.0-1"; "alsa-base 1.0.25+dfsg-0ubuntu7";
   "amd64-microcode 3.20231019.1ubuntu2.1"; "apg 2.2.3.dfsg.1-5build3";
   "g++ 4:13.2.0-7ubuntu1"; "g++-13-x86-64-linux-gnu 13.3.0-6ubuntu2~24.04";
   "gir1.2-gmenu-3.0 3.36.0-1.1ubuntu3"; "gir1.2-upowerglib-1.0 1.90.3-1";
   "heif-gdk-pixbuf 1.17.6-1ubuntu4.1"; "libatomic1 14.2.0-4ubuntu2~24.04";
   "libatopology2t64 1.2.11-1build2"; "libatspi2.0-0t64 2.52.0-1build1";
   "libattr1 1:2.5.2-1build1.1"; "libaudit-common 1:3.1.2-2.1build1.1";
   "libcairo-gobject-perl 1.005-4build3";
   "libdbusmenu-glib4 18.10.20180917~bzr492+repack1-3.1ubuntu5";
   "libjavascriptcoregtk-4.1-0 2.46.6-0ubuntu0.24.04.1";
   "libplymouth5 24.004.60-1ubuntu7.1"; "libplist-2.0-4 2.3.0-1~exp2build2";
   "make 4.3-4.1build2"; "mongodb-mongosh 2.4.2"; "nano 7.2-2ubuntu0.1";
   "nvidia-driver-550 550.144.03-0ubuntu1"; "openjdk-21-jre 21.0.6+7-1~24.04.1";
   "openssh-server 1:9.6p1-3ubuntu13.8"; "printer-driver-foo2zjs 20200505dfsg0-2ubuntu6"].

(* ------------------------------------------------------------------ *)
(** ** Lemmas on the string primitives *)

Section StringFacts.

Lemma str_forall_app (q : ascii -> bool) (s1 s2 : string) :
  str_forall q (s1 ++ s2) = str_forall q s1 && str_forall q s2.
Proof.
  induction s1 as [|c s1 IH]; simpl; [done|].
  rewrite IH. by destruct (q c).
Qed.

Lemma find_index_none (p : ascii -> bool) (s : string) :
  find_index p s = None -> str_forall (fun c => negb (p c)) s = true.
Proof.
  induction s as [|c s IH]; simpl; [done|].
  destruct (p c); [discriminate|].
  destruct (find_index p s); [discriminate|]. intros _. simpl. by apply IH.
Qed.

Lemma find_index_some_take (p : ascii -> bool) (s : string) (j : nat) :
  find_index p s = Some j -> str_forall (fun c => negb (p c)) (str_take j s) = true.
Proof.
  revert j. induction s as [|c s IH]; intros j; simpl; [discriminate|].
  destruct (p c) eqn:Hp.
  - intros [= <-]. done.
  - destruct (find_index p s) as [i|] eqn:Hi; [|discriminate].
    intros [= <-]. simpl. rewrite Hp. simpl. by apply IH.
Qed.

Lemma str_forall_none (p : ascii -> bool) (s : string) :
  str_forall (fun c => negb (p c)) s = true -> find_index p s = None.
Proof.
  induction s as [|c s IH]; simpl; [done|].
  destruct (p c); simpl; [discriminate|].
  intros H. by rewrite IH.
Qed.

Lemma str_forall_drop (q : ascii -> bool) (j : nat) (s : string) :
  str_forall q s = true -> str_forall q (str_drop j s) = true.
Proof.
  revert s. induction j as [|j IH]; intros [|c s]; simpl; try done.
  intros H. apply andb_true_iff in H as [_ H]. by apply IH.
Qed.

Lemma str_forall_impl (q1 q2 : ascii -> bool) (s : string) :
  (forall c, q1 c = true -> q2 c = true) ->
  str_forall q1 s = true -> str_forall q2 s = true.
Proof.
  intros Himp. induction s as [|c s IH]; simpl; [done|].
  intros [H1 H2]%andb_true_iff. rewrite (Himp _ H1). simpl. by apply IH.
Qed.

Lemma split_no_sep (sep : ascii) (a : string) :
  str_forall (fun c => negb (Ascii.eqb c sep)) a = true -> split a sep = [a].
Proof.
  induction a as [|c a IH]; simpl; [done|].
  destruct (Ascii.eqb c sep); simpl; [discriminate|].
  intros H. by rewrite IH.
Qed.

Lemma split_app_sep (sep : ascii) (a b : string) :
  str_forall (fun c => negb (Ascii.eqb c sep)) a = true ->
  split (a ++ String sep b) sep = a :: split b sep.
Proof.
  induction a as [|c a IH]; simpl.
  - intros _. by rewrite Ascii.eqb_refl.
  - destruct (Ascii.eqb c sep); simpl; [discriminate|].
    intros H. by rewrite IH.
Qed.

Lemma split_join (sep : ascii) (ls : list string) :
  ls <> [] ->
  Forall (fun s => str_forall (fun c => negb (Ascii.eqb c sep)) s = true) ls ->
  split (join ls sep) sep = ls.
Proof.
  induction ls as [|x [|y rest] IH]; intros Hne Hall; [done| |].
  - inversion Hall; subst. simpl. by apply split_no_sep.
  - inversion Hall as [|? ? Hx Hrest]; subst.
    change (join (x :: y :: rest) sep) with (x ++ String sep (join (y :: rest) sep)).
    rewrite split_app_sep by done. f_equal. by apply IH.
Qed.

Lemma count_char_app (c : ascii) (s1 s2 : string) :
  count_char c (s1 ++ s2) = (count_char c s1 + count_char c s2)%nat.
Proof. induction s1 as [|d s1 IH]; simpl; [done|]. rewrite IH. lia. Qed.

Lemma count_char_none (c : ascii) (s : string) :
  str_forall (fun d => negb (Ascii.eqb d c)) s = true -> count_char c s = O.
Proof.
  induction s as [|d s IH]; simpl; [done|].
  destruct (Ascii.eqb d c); simpl; [discriminate|]. apply IH.
Qed.

Lemma digit_not_sep (c d : ascii) :
  is_digit d = false -> is_digit c = true -> negb (Ascii.eqb c d) = true.
Proof.
  intros Hd Hc. destruct (Ascii.eqb c d) eqn:E; [|done].
  apply Ascii.eqb_eq in E. subst. congruence.
Qed.

End StringFacts.

(* ------------------------------------------------------------------ *)
(** ** Lemmas on the steps of [getVersion] *)

Section VersionFacts.

Lemma keep_digits_digits (part : string) : all_digits (keep_digits part) = true.
Proof.
  unfold keep_digits, all_digits.
  destruct (find_index _ part) as [j|] eqn:E.
  - apply find_index_some_take in E.
    eapply str_forall_impl; [|exact E]. intros c; cbn; destruct (is_digit c); auto.
  - apply find_index_none in E.
    eapply str_forall_impl; [|exact E]. intros c; cbn; destruct (is_digit c); auto.
Qed.

Lemma strip_leading_zeros_digits (part : string) :
  all_digits part = true -> all_digits (strip_leading_zeros part) = true.
Proof.
  unfold strip_leading_zeros, all_digits. intros H.
  destruct (find_index _ part); [by apply str_forall_drop|done].
Qed.

Lemma digits_no_dot (s : string) :
  all_digits s = true -> str_forall (fun c => negb (Ascii.eqb c "."%char)) s = true.
Proof.
  apply str_forall_impl. intros c. apply digit_not_sep. reflexivity.
Qed.

Lemma fix_arity_three (P : string -> Prop) (l : list string) :
  Forall P l -> P "0" ->
  exists a b c, fix_arity l = [a; b; c] /\ P a /\ P b /\ P c.
Proof.
  intros Hall H0.
  destruct l as [|x [|y [|z [|w l]]]];
    repeat match goal with H : Forall _ (_ :: _) |- _ => inversion H; subst; clear H end;
    unfold fix_arity; simpl; eauto 10.
Qed.

Lemma fix_arity_nth (l : list string) (k : nat) :
  (k < 3)%nat -> (k < length l)%nat -> nth_error (fix_arity l) k = nth_error l k.
Proof.
  intros Hk Hl.
  destruct l as [|x [|y [|z [|w l]]]]; destruct k as [|[|[|k]]];
    simpl in *; try lia; reflexivity.
Qed.

Lemma keep_digits_empty (seg : string) :
  no_leading_digit seg = true -> keep_digits seg = "".
Proof.
  destruct seg as [|c s]; simpl; [done|].
  intros H. unfold keep_digits. simpl. by rewrite H.
Qed.

(** The parts [getVersion] joins: three digit strings. *)
Lemma getVersion_parts (version : string) :
  exists a b c,
    fix_arity (map strip_leading_zeros (map keep_digits
      (split (strip_suffix (strip_epoch version)) "."%char))) = [a; b; c] /\
    all_digits a = true /\ all_digits b = true /\ all_digits c = true.
Proof.
  apply fix_arity_three; [|reflexivity].
  apply Forall_forall. intros x Hx. apply list_elem_of_In in Hx.
  apply in_map_iff in Hx as (y & <- & Hy).
  apply in_map_iff in Hy as (z & <- & _).
  apply strip_leading_zeros_digits, keep_digits_digits.
Qed.

Lemma join3 (a b c : string) (sep : ascii) :
  join [a; b; c] sep = (a ++ String sep (b ++ String sep c))%string.
Proof. reflexivity. Qed.

Lemma getVersion_shape (version : string) :
  exists a b c, getVersion version = join [a; b; c] "."%char /\
    all_digits a = true /\ all_digits b = true /\ all_digits c = true /\
    split (getVersion version) "."%char = [a; b; c].
Proof.
  destruct (getVersion_parts version) as (a & b & c & E & Ha & Hb & Hc).
  exists a, b, c.
  assert (Hv : getVersion version = join [a; b; c] "."%char)
    by (unfold getVersion; by rewrite E).
  repeat split; try done.
  rewrite Hv. apply split_join; [done|].
  repeat constructor; by apply digits_no_dot.
Qed.

End VersionFacts.

Section CanonicalFacts.

Lemma digits_or_dots_join3 (a b c : string) :
  all_digits a = true -> all_digits b = true -> all_digits c = true ->
  digits_or_dots (join [a; b; c] "."%char) = true.
Proof.
  intros Ha Hb Hc. unfold digits_or_dots. rewrite join3.
  assert (Hd : forall s, all_digits s = true ->
            str_forall (fun c => is_digit c || Ascii.eqb c "."%char) s = true).
  { intros s. apply str_forall_impl. intros d Hd'. cbn. rewrite Hd'. reflexivity. }
  rewrite str_forall_app. cbn [str_forall]. rewrite str_forall_app. cbn [str_forall].
  rewrite !Hd by done. reflexivity.
Qed.

Lemma strip_epoch_id (x : string) : digits_or_dots x = true -> strip_epoch x = x.
Proof.
  intros H. unfold strip_epoch, index.
  rewrite str_forall_none; [done|].
  eapply str_forall_impl; [|exact H]. intros c.
  destruct (Ascii.eqb c ":"%char) eqn:E; [|done].
  apply Ascii.eqb_eq in E as ->. discriminate.
Qed.

Lemma strip_suffix_id (x : string) : digits_or_dots x = true -> strip_suffix x = x.
Proof.
  intros H. unfold strip_suffix, index_any.
  rewrite str_forall_none; [done|].
  eapply str_forall_impl; [|exact H]. intros c.
  simpl. destruct (Ascii.eqb c "-"%char) eqn:E1;
    [apply Ascii.eqb_eq in E1 as ->; discriminate|].
  destruct (Ascii.eqb c "+"%char) eqn:E2;
    [apply Ascii.eqb_eq in E2 as ->; discriminate|].
  destruct (Ascii.eqb c "~"%char) eqn:E3;
    [apply Ascii.eqb_eq in E3 as ->; discriminate|].
  done.
Qed.

Lemma keep_digits_id (part : string) : all_digits part = true -> keep_digits part = part.
Proof.
  intros H. unfold keep_digits. rewrite str_forall_none; [done|].
  eapply str_forall_impl; [|exact H]. intros c Hc'. cbn. rewrite Hc'. reflexivity.
Qed.

Lemma strip_leading_zeros_id (part : string) :
  digits1 part = true -> no_leading_zero part = true -> strip_leading_zeros part = part.
Proof.
  intros Hd Hz. destruct part as [|c s]; [discriminate|].
  unfold no_leading_zero in Hz.
  destruct (String.eqb (String c s) "0") eqn:E0.
  - apply String.eqb_eq in E0. rewrite E0. reflexivity.
  - simpl in Hz. apply andb_true_iff in Hz as [_ Hc].
    unfold strip_leading_zeros. simpl. by rewrite Hc.
Qed.

Lemma digits1_all (s : string) : digits1 s = true -> all_digits s = true.
Proof. unfold digits1. by intros [_ ?]%andb_true_iff. Qed.

Lemma getVersion_canonical (x : string) : canonical x -> getVersion x = x.
Proof.
  intros (a & b & c & -> & Ha & Hb & Hc & Za & Zb & Zc).
  pose proof (digits_or_dots_join3 a b c (digits1_all _ Ha) (digits1_all _ Hb)
                (digits1_all _ Hc)) as Hx.
  unfold getVersion. rewrite strip_epoch_id, strip_suffix_id by done.
  rewrite split_join; [|done|].
  2: { repeat constructor; apply digits_no_dot, digits1_all; done. }
  simpl. rewrite !keep_digits_id by (apply digits1_all; done).
  rewrite !strip_leading_zeros_id by done. reflexivity.
Qed.

End CanonicalFacts.

Section PrefixFacts.

Lemma find_index_after_prefix (p : ascii -> bool) (pre rest : string) (c : ascii) :
  str_forall (fun d => negb (p d)) pre = true -> p c = true ->
  find_index p (pre ++ String c rest) = Some (String.length pre).
Proof.
  intros Hpre Hc. induction pre as [|d pre IH]; simpl in *.
  - by rewrite Hc.
  - apply andb_true_iff in Hpre as [Hd Hpre].
    destruct (p d); [discriminate|]. by rewrite IH.
Qed.

Lemma str_drop_after_prefix (pre rest : string) (c : ascii) :
  str_drop (S (String.length pre)) (pre ++ String c rest) = rest.
Proof. induction pre as [|d pre IH]; simpl; [done|]. exact IH. Qed.

End PrefixFacts.

(* ------------------------------------------------------------------ *)
(** ** Lemmas on the line parser *)

Section ParserFacts.

Lemma process_line_fst (m : gmap string string) (logs : list log_entry) (line : string) :
  (process_line (m, logs) line).1 = line_map m line.
Proof.
  unfold line_map, process_line.
  destruct (String.length line =? 0)%nat; [done|].
  by destruct (split line " "%char) as [|x [|y [|z t]]].
Qed.

Lemma fold_process_line_fst (lines : list string) (m : gmap string string)
    (logs : list log_entry) :
  (fold_left process_line lines (m, logs)).1 = parsed_map lines m.
Proof.
  revert m logs. induction lines as [|line lines IH]; intros m logs; cbn [fold_left]; [done|].
  destruct (process_line (m, logs) line) as [m' logs'] eqn:E.
  rewrite IH. unfold parsed_map; cbn [fold_left]. f_equal.
  by rewrite <- (process_line_fst m logs line), E.
Qed.

Lemma getPackages_map (packageData : string) :
  (getPackages packageData).1.1 = parsed_map (split packageData "010"%char) ∅.
Proof.
  unfold getPackages, parse_lines.
  rewrite <- (fold_process_line_fst _ ∅ []).
  by destruct (fold_left _ _ _).
Qed.

Lemma length_split (sep : ascii) (s : string) :
  length (split s sep) = S (count_char sep s).
Proof.
  induction s as [|c s IH]; simpl; [done|].
  destruct (Ascii.eqb c sep); simpl; [by rewrite IH|].
  destruct (split s sep); simpl in *; lia.
Qed.

Lemma line_map_skip (m : gmap string string) (line : string) :
  length (split line " "%char) <> 2%nat -> line_map m line = m.
Proof.
  intros H. unfold line_map, process_line.
  destruct (String.length line =? 0)%nat; [done|].
  destruct (split line " "%char) as [|x [|y [|z t]]]; simpl in *; done.
Qed.

Lemma line_map_other (m : gmap string string) (line name : string) :
  ~ names_entry name line -> line_map m line !! name = m !! name.
Proof.
  intros H. unfold line_map, process_line.
  destruct (String.length line =? 0)%nat; [done|].
  destruct (split line " "%char) as [|x [|y [|z t]]] eqn:E; simpl; try done.
  rewrite lookup_insert_ne; [done|].
  intros ->. apply H. by exists y.
Qed.

Lemma parsed_map_other (lines : list string) (m : gmap string string) (name : string) :
  Forall (fun line => ~ names_entry name line) lines ->
  parsed_map lines m !! name = m !! name.
Proof.
  revert m. induction lines as [|line lines IH]; intros m Hall; [done|].
  inversion Hall as [|? ? Hl Hrest]; subst.
  unfold parsed_map; simpl. fold (parsed_map lines (line_map m line)).
  rewrite IH by done. by apply line_map_other.
Qed.

Lemma parsed_map_app (l1 l2 : list string) (m : gmap string string) :
  parsed_map (l1 ++ l2) m = parsed_map l2 (parsed_map l1 m).
Proof. apply fold_left_app. Qed.

Lemma parsed_map_cons (line : string) (l : list string) (m : gmap string string) :
  parsed_map (line :: l) m = parsed_map l (line_map m line).
Proof. reflexivity. Qed.

Lemma token_no_space (s : string) :
  token s -> str_forall (fun c => negb (Ascii.eqb c " "%char)) s = true.
Proof.
  apply str_forall_impl. intros c [H _]%andb_true_iff. exact H.
Qed.

Lemma token_line_no_nl (name v : string) :
  token name -> token v -> no_nl (name ++ String " " v).
Proof.
  intros Hn Hv. unfold no_nl. rewrite str_forall_app. simpl.
  assert (Hnl : forall s, token s ->
            str_forall (fun c => negb (Ascii.eqb c "010"%char)) s = true).
  { intros s. apply str_forall_impl. intros c [_ H]%andb_true_iff. exact H. }
  by rewrite !Hnl.
Qed.

Lemma split_token_line (name v : string) :
  token name -> token v -> split (name ++ String " " v) " "%char = [name; v].
Proof.
  intros Hn Hv. rewrite split_app_sep by (by apply token_no_space).
  by rewrite split_no_sep by (by apply token_no_space).
Qed.

Lemma process_line_token_line (m : gmap string string) (logs : list log_entry)
    (name v : string) :
  token name -> token v ->
  process_line (m, logs) (name ++ String " " v) = (<[name := getVersion v]> m, logs).
Proof.
  intros Hn Hv. unfold process_line.
  assert (Hl : (String.length (name ++ String " " v) =? 0)%nat = false)
    by (destruct name; reflexivity).
  rewrite Hl.
  by rewrite split_token_line.
Qed.

Lemma parse_join (lines : list string) :
  Forall no_nl lines ->
  (getPackages (join lines "010"%char)).1.1 = parsed_map lines ∅.
Proof.
  intros Hall. rewrite getPackages_map.
  destruct lines as [|l ls]; [reflexivity|].
  rewrite split_join; [done|done|].
  eapply Forall_impl; [exact Hall|]. intros s Hs. exact Hs.
Qed.

Lemma parsed_map_values (lines : list string) (m : gmap string string) :
  (forall k v, m !! k = Some v -> exists raw, v = getVersion raw) ->
  forall k v, parsed_map lines m !! k = Some v -> exists raw, v = getVersion raw.
Proof.
  revert m. induction lines as [|line lines IH]; intros m Hm; [exact Hm|].
  unfold parsed_map; simpl. fold (parsed_map lines (line_map m line)).
  apply IH. intros k v. unfold line_map, process_line.
  destruct (String.length line =? 0)%nat; [apply Hm|].
  destruct (split line " "%char) as [|x [|y [|z t]]]; simpl; try apply Hm.
  rewrite lookup_insert. case_decide.
  - intros [= <-]. eauto.
  - apply Hm.
Qed.

End ParserFacts.

(* ------------------------------------------------------------------ *)
(** ** Claims on [getVersion] *)

(** C1 (code_bug): [getVersion] does not always produce a value matching
    [^\d+\.\d+\.\d+$]: a segment with no digits stays empty, so the empty
    version (as printed by [dpkg-query] for a package with no installed
    version, line ["pkg "]) normalises to [".0.0"]. *)
Theorem getVersion_empty_not_xyz :
  getVersion "" = ".0.0" /\ matches_xyz (getVersion "") = false.
Proof. split; reflexivity. Qed.

(** C2 (code_bug): the leading-zero loop only strips when it meets a byte
    other than ['0']; a segment made only of zeros keeps all of them, so
    ["00.1.1"] normalises to ["00.1.1"], whose first component has a
    leading zero. *)
Theorem getVersion_keeps_zero_run :
  getVersion "00.1.1" = "00.1.1" /\
  split (getVersion "00.1.1") "."%char = ["00"; "1"; "1"] /\
  no_leading_zero "00" = false.
Proof. repeat split; reflexivity. Qed.

(** C7: [getVersion] is idempotent on canonical versions (three non-empty
    digit components without leading zeros). *)
Theorem getVersion_idempotent_canonical (x : string) (Hx : canonical x) :
  getVersion (getVersion x) = getVersion x.
Proof. rewrite (getVersion_canonical x Hx). apply getVersion_canonical, Hx. Qed.

Lemma getVersion_idempotent_canonical_witness :
  canonical "1.20.3" /\ getVersion (getVersion "1.20.3") = getVersion "1.20.3".
Proof.
  assert (H : canonical "1.20.3")
    by (exists "1", "20", "3"; repeat split; reflexivity).
  split; [exact H|]. exact (getVersion_idempotent_canonical "1.20.3" H).
Defined.

(** C8: the epoch (everything up to and including the first [':']) is
    removed before the other steps: ["2:1.2.3"] gives ["1.2.3"] and
    ["1:9.6p1-3ubuntu13.8"] gives ["9.6.0"]. *)
Theorem getVersion_epoch_examples :
  getVersion "2:1.2.3" = "1.2.3" /\
  getVersion "1:9.6p1-3ubuntu13.8" = "9.6.0" /\
  (forall pre rest : string,
     str_forall (fun c => negb (Ascii.eqb c ":"%char)) pre = true ->
     strip_epoch (pre ++ String ":" rest) = rest).
Proof.
  split; [reflexivity|]. split; [reflexivity|].
  intros pre rest Hpre. unfold strip_epoch, index.
  rewrite (find_index_after_prefix _ pre rest ":"%char Hpre) by apply Ascii.eqb_refl.
  apply str_drop_after_prefix.
Qed.

(** C10: the output of [getVersion] has exactly two ['.'] bytes and is the
    ['.']-join of three components made only of ASCII digits (possibly
    empty); a segment (among the first three) with no leading digit gives
    an empty component, not ["0"]. *)
Theorem getVersion_three_digit_components (raw : string) :
  count_char "."%char (getVersion raw) = 2%nat /\
  (exists a b c, getVersion raw = join [a; b; c] "."%char /\
     all_digits a = true /\ all_digits b = true /\ all_digits c = true) /\
  (forall (k : nat) (seg : string), (k < 3)%nat ->
     nth_error (split (strip_suffix (strip_epoch raw)) "."%char) k = Some seg ->
     no_leading_digit seg = true ->
     nth_error (split (getVersion raw) "."%char) k = Some "").
Proof.
  destruct (getVersion_parts raw) as (a & b & c & E & Ha & Hb & Hc).
  assert (Hv : getVersion raw = join [a; b; c] "."%char)
    by (unfold getVersion; by rewrite E).
  assert (Hs : split (getVersion raw) "."%char = [a; b; c]).
  { rewrite Hv. apply split_join; [done|].
    repeat constructor; by apply digits_no_dot. }
  split; [|split].
  - rewrite Hv, join3, count_char_app. cbn [count_char].
    rewrite count_char_app. cbn [count_char].
    rewrite !count_char_none by (apply digits_no_dot; done). reflexivity.
  - exists a, b, c. done.
  - intros k seg Hk Hseg Hnd.
    assert (Hk' : (k < length (split (strip_suffix (strip_epoch raw)) "."%char))%nat).
    { apply nth_error_Some. by rewrite Hseg. }
    rewrite Hs, <- E, fix_arity_nth by (rewrite ?length_map; done).
    rewrite !nth_error_map, Hseg. simpl.
    rewrite keep_digits_empty by done. reflexivity.
Qed.

(* ------------------------------------------------------------------ *)
(** ** Claims on [getPackages] and [GetInstalledPackages] *)

(** C3 (counterexample): the line is split at every space, not only the
    first; a line whose version part holds a further space has three
    tokens and stores no entry. *)
Lemma getPackages_extra_space_no_entry :
  split "pkg 1.0 extra" " "%char = ["pkg"; "1.0"; "extra"] /\
  (getPackages "pkg 1.0 extra").1.1 !! "pkg" = None.
Proof. split; reflexivity. Qed.

(** C3 (amended): a line made of two tokens [name] and [rawVersion]
    joined by one space stores [name] with value [getVersion rawVersion]
    (overwriting the map under construction, log untouched); a line with
    two or more spaces leaves the map unchanged. *)
Theorem process_line_one_space (name rawVersion : string)
    (Hn : token name) (Hr : token rawVersion) :
  (forall (m : gmap string string) (logs : list log_entry),
     process_line (m, logs) (name ++ String " " rawVersion) =
     (<[name := getVersion rawVersion]> m, logs)) /\
  (getPackages (name ++ String " " rawVersion)).1.1 = {[name := getVersion rawVersion]} /\
  (forall (m : gmap string string) (logs : list log_entry) (line : string),
     (2 <= count_char " "%char line)%nat -> (process_line (m, logs) line).1 = m).
Proof.
  split; [|split].
  - intros m logs. by apply process_line_token_line.
  - change (name ++ String " " rawVersion)%string
      with (join [name ++ String " " rawVersion] "010"%char).
    rewrite (parse_join [name ++ String " " rawVersion]).
    + unfold parsed_map; simpl. unfold line_map.
      rewrite process_line_token_line by done. reflexivity.
    + constructor; [by apply token_line_no_nl|constructor].
  - intros m logs line Hc. rewrite process_line_fst.
    apply line_map_skip. rewrite length_split. lia.
Qed.

Lemma process_line_one_space_witness :
  token "wget" /\ token "1.20.3" /\
  (getPackages ("wget" ++ String " " "1.20.3")).1.1 = {["wget" := getVersion "1.20.3"]}.
Proof.
  assert (Hn : token "wget") by reflexivity.
  assert (Hr : token "1.20.3") by reflexivity.
  split; [exact Hn|]. split; [exact Hr|].
  exact (proj1 (proj2 (process_line_one_space "wget" "1.20.3" Hn Hr))).
Defined.

(** C4: the parser always returns a map; a line that does not split into
    exactly two tokens (the empty line included) is skipped, and the map
    is the one the text without that line gives, so every later line is
    still parsed. *)
Theorem getPackages_skips_bad_line (pre post : list string) (bad : string)
    (Hnl : Forall no_nl (pre ++ bad :: post))
    (Hbad : length (split bad " "%char) <> 2%nat) :
  (getPackages (join (pre ++ bad :: post) "010"%char)).1.1 =
  (getPackages (join (pre ++ post) "010"%char)).1.1.
Proof.
  rewrite !parse_join.
  - rewrite !parsed_map_app, parsed_map_cons. by rewrite line_map_skip.
  - apply Forall_app in Hnl as [Hpre Hpost]. inversion Hpost; subst.
    by apply Forall_app.
  - exact Hnl.
Qed.

Lemma getPackages_skips_bad_line_witness :
  Forall no_nl (["wget 1.20.3"] ++ "badline" :: ["acl 2.3.2-1build1.1"]) /\
  length (split "badline" " "%char) <> 2%nat /\
  (getPackages (join (["wget 1.20.3"] ++ "badline" :: ["acl 2.3.2-1build1.1"]) "010"%char)).1.1 =
  (getPackages (join (["wget 1.20.3"] ++ ["acl 2.3.2-1build1.1"]) "010"%char)).1.1.
Proof.
  assert (H1 : Forall no_nl (["wget 1.20.3"] ++ "badline" :: ["acl 2.3.2-1build1.1"]))
    by (repeat constructor).
  assert (H2 : length (split "badline" " "%char) <> 2%nat) by (simpl; lia).
  split; [exact H1|]. split; [exact H2|].
  exact (getPackages_skips_bad_line ["wget 1.20.3"] ["acl 2.3.2-1build1.1"] "badline" H1 H2).
Defined.

(** C5: of two lines with the same package name, the later one wins: the
    map holds the name with the normalised version of the later line
    (when no line after it names the package again). *)
Theorem getPackages_last_duplicate_wins (pre mid post : list string)
    (name v1 v2 : string)
    (Hn : token name) (H1 : token v1) (H2 : token v2)
    (Hnl : Forall no_nl (pre ++ mid ++ post))
    (Hpost : Forall (fun line => ~ names_entry name line) post) :
  (getPackages (join (pre ++ (name ++ String " " v1) :: mid ++
                      (name ++ String " " v2) :: post) "010"%char)).1.1 !! name =
  Some (getVersion v2).
Proof.
  apply Forall_app in Hnl as [Hpre Hnl]. apply Forall_app in Hnl as [Hmid Hpost'].
  rewrite parse_join.
  - rewrite parsed_map_app, parsed_map_cons, parsed_map_app, parsed_map_cons.
    rewrite (parsed_map_other post _ name Hpost).
    unfold line_map at 1. rewrite process_line_token_line by done.
    apply lookup_insert_eq.
  - apply Forall_app. split; [done|].
    constructor; [by apply token_line_no_nl|].
    apply Forall_app. split; [done|].
    constructor; [by apply token_line_no_nl|done].
Qed.

Lemma getPackages_last_duplicate_wins_witness :
  token "wget" /\ token "1.19.2" /\ token "1.21.2" /\
  Forall no_nl ([] ++ ["acl 2.3.2"] ++ []) /\
  Forall (fun line => ~ names_entry "wget" line) [] /\
  (getPackages (join ([] ++ ("wget" ++ String " " "1.19.2") :: ["acl 2.3.2"] ++
                      ("wget" ++ String " " "1.21.2") :: []) "010"%char)).1.1 !! "wget" =
  Some (getVersion "1.21.2").
Proof.
  assert (Hn : token "wget") by reflexivity.
  assert (H1 : token "1.19.2") by reflexivity.
  assert (H2 : token "1.21.2") by reflexivity.
  assert (Hnl : Forall no_nl ([] ++ ["acl 2.3.2"] ++ [])) by (repeat constructor).
  assert (Hp : Forall (fun line => ~ names_entry "wget" line) []) by constructor.
  split; [exact Hn|]. split; [exact H1|]. split; [exact H2|].
  split; [exact Hnl|]. split; [exact Hp|].
  exact (getPackages_last_duplicate_wins [] ["acl 2.3.2"] [] "wget" "1.19.2" "1.21.2"
           Hn H1 H2 Hnl Hp).
Defined.

(** C9: on ["wget 1.20.3\nacl 2.3.2-1build1.1\n"] the map holds
    ["wget" -> "1.20.3"] and ["acl" -> "2.3.2"] (suffix stripped, three
    segments, not padded), and nothing else. *)
Theorem getPackages_end_to_end :
  (getPackages e2e_text).1.1 !! "wget" = Some "1.20.3" /\
  (getPackages e2e_text).1.1 !! "acl" = Some "2.3.2" /\
  (getPackages e2e_text).1.1 = <["acl" := "2.3.2"]> {["wget" := "1.20.3"]}.
Proof. repeat split; reflexivity. Qed.

(** C6 (counterexample): on a non-zero exit the error text is
    ["error running dpkg-query: "] followed by the exit error only; the
    captured stderr is written to the log, not carried in the error. *)
Lemma GetInstalledPackages_error_without_stderr :
  let r := mkProc 1 "" "dpkg-query: error: database is locked" in
  (GetInstalledPackages r).1.1.1 = None /\
  (GetInstalledPackages r).1.2 = Some "error running dpkg-query: exit status 1" /\
  String.index 0 (proc_stderr r) "error running dpkg-query: exit status 1" = None /\
  In (LError, "stderr: dpkg-query: error: database is locked") (GetInstalledPackages r).2.
Proof. vm_compute. repeat split; auto. Qed.

(** C6 (amended): on a non-zero exit status the result is a [nil] map and
    the error ["error running dpkg-query: exit status N"] (the stderr text,
    when there is one, is logged at error level); on exit status 0 there is
    no error and the map is the one [getPackages] builds from the whole
    stdout. *)
Theorem GetInstalledPackages_outcome (r : ProcResult) :
  (proc_exit r <> 0%Z ->
     (GetInstalledPackages r).1.1.1 = None /\
     (GetInstalledPackages r).1.2 =
       Some ("error running dpkg-query: exit status " ++ pretty (proc_exit r)) /\
     ((0 < String.length (proc_stderr r))%nat ->
        In (LError, "stderr: " ++ proc_stderr r) (GetInstalledPackages r).2)) /\
  (proc_exit r = 0%Z ->
     (GetInstalledPackages r).1.1.1 = Some (getPackages (proc_stdout r)).1.1 /\
     (GetInstalledPackages r).1.2 = None).
Proof.
  unfold GetInstalledPackages, run_error.
  split; intros Hexit.
  - apply Z.eqb_neq in Hexit. rewrite Hexit. simpl.
    split; [done|]. split; [done|].
    intros Hlen. apply Nat.ltb_lt in Hlen. rewrite Hlen.
    right. by left.
  - rewrite Hexit. simpl.
    destruct (getPackages (proc_stdout r)) as [[pk st] pl]. simpl.
    split; reflexivity.
Qed.

(* ------------------------------------------------------------------ *)
(** ** The examples of the specification, evaluated *)

Example getVersion_suffix_example : getVersion "1.2.3-1~ubuntu1" = "1.2.3".
Proof. reflexivity. Qed.

Example getVersion_zero_examples :
  getVersion "01.2.3" = "1.2.3" /\ getVersion "25.02" = "25.2.0".
Proof. split; reflexivity. Qed.

Example getVersion_arity_examples :
  getVersion "1.2" = "1.2.0" /\ getVersion "25.2.5.1.6" = "25.2.5".
Proof. split; reflexivity. Qed.

Example getVersion_text_example : getVersion "25.22ubuntu1.44mystring1" = "25.22.44".
Proof. reflexivity. Qed.

(* ------------------------------------------------------------------ *)
(** ** Further properties of [getVersion] *)

Section MoreVersionFacts.

Lemma find_index_drop_head (p : ascii -> bool) (s : string) (j : nat) :
  find_index p s = Some j -> find_index p (str_drop j s) = Some O.
Proof.
  revert j. induction s as [|c s IH]; intros j; simpl; [discriminate|].
  destruct (p c) eqn:Hc.
  - intros [= <-]. simpl. by rewrite Hc.
  - destruct (find_index p s) as [i|] eqn:Hi; [|discriminate].
    intros [= <-]. simpl. by apply IH.
Qed.

Lemma strip_leading_zeros_idem (part : string) :
  strip_leading_zeros (strip_leading_zeros part) = strip_leading_zeros part.
Proof.
  unfold strip_leading_zeros at 2 3.
  destruct (find_index _ part) as [j|] eqn:E.
  - unfold strip_leading_zeros. by rewrite (find_index_drop_head _ _ _ E).
  - unfold strip_leading_zeros. by rewrite E.
Qed.

Lemma getVersion_unfold (version : string) :
  getVersion version =
  join (fix_arity (map strip_leading_zeros (map keep_digits
          (split (strip_suffix (strip_epoch version)) "."%char)))) "."%char.
Proof. reflexivity. Qed.

Lemma getVersion_fixed (a b c : string) :
  all_digits a = true -> all_digits b = true -> all_digits c = true ->
  strip_leading_zeros a = a -> strip_leading_zeros b = b -> strip_leading_zeros c = c ->
  getVersion (join [a; b; c] "."%char) = join [a; b; c] "."%char.
Proof.
  intros Ha Hb Hc Za Zb Zc.
  pose proof (digits_or_dots_join3 a b c Ha Hb Hc) as Hx.
  rewrite getVersion_unfold, strip_epoch_id, strip_suffix_id by done.
  rewrite split_join; [|done|].
  2: { repeat constructor; by apply digits_no_dot. }
  simpl. rewrite !keep_digits_id by done. by rewrite Za, Zb, Zc.
Qed.

(** The parts [getVersion] joins are digit strings that the leading-zero
    step leaves as they are. *)
Lemma getVersion_parts_stable (version : string) :
  exists a b c,
    fix_arity (map strip_leading_zeros (map keep_digits
      (split (strip_suffix (strip_epoch version)) "."%char))) = [a; b; c] /\
    (all_digits a = true /\ strip_leading_zeros a = a) /\
    (all_digits b = true /\ strip_leading_zeros b = b) /\
    (all_digits c = true /\ strip_leading_zeros c = c).
Proof.
  apply fix_arity_three; [|split; reflexivity].
  apply Forall_forall. intros x Hx. apply list_elem_of_In in Hx.
  apply in_map_iff in Hx as (y & <- & Hy).
  apply in_map_iff in Hy as (z & <- & _).
  split; [apply strip_leading_zeros_digits, keep_digits_digits|].
  apply strip_leading_zeros_idem.
Qed.

Lemma zero_run_or_nonzero_head_slz (part : string) :
  zero_run_or_nonzero_head (strip_leading_zeros part) = true.
Proof.
  unfold strip_leading_zeros.
  destruct (find_index _ part) as [j|] eqn:E.
  - apply find_index_drop_head in E.
    unfold zero_run_or_nonzero_head. apply orb_true_iff. right.
    destruct (str_drop j part) as [|c s]; [done|].
    simpl in E. destruct (negb (Ascii.eqb c "0"%char)); [done|].
    destruct (find_index _ s); discriminate.
  - apply find_index_none in E.
    unfold zero_run_or_nonzero_head. apply orb_true_iff. left.
    eapply str_forall_impl; [|exact E]. intros c. cbn.
    by destruct (Ascii.eqb c "0"%char).
Qed.

Lemma dec_acc_zero_prefix (part : string) (j : nat) :
  find_index (fun c => negb (Ascii.eqb c "0"%char)) part = Some j ->
  dec_value (str_drop j part) = dec_value part.
Proof.
  revert j. induction part as [|c part IH]; intros j; simpl; [discriminate|].
  destruct (Ascii.eqb c "0"%char) eqn:Hc; simpl.
  - apply Ascii.eqb_eq in Hc as ->.
    destruct (find_index _ part) as [i|] eqn:Hi; [|discriminate].
    intros [= <-]. simpl. rewrite (IH i eq_refl). reflexivity.
  - intros [= <-]. reflexivity.
Qed.

Lemma dec_value_slz (part : string) :
  dec_value (strip_leading_zeros part) = dec_value part.
Proof.
  unfold strip_leading_zeros.
  destruct (find_index _ part) as [j|] eqn:E; [by apply dec_acc_zero_prefix|done].
Qed.

Lemma fix_arity_nth_default (l : list string) (k : nat) :
  (k < 3)%nat ->
  nth k (fix_arity l) "" = if (k <? length l)%nat then nth k l "" else "0".
Proof.
  intros Hk.
  destruct l as [|x [|y [|z [|w l]]]]; destruct k as [|[|[|k]]];
    simpl in *; try lia; reflexivity.
Qed.

Lemma str_forall_no_sep_app (q : ascii -> bool) (pre rest : string) (c : ascii) :
  str_forall q pre = true -> q c = true -> str_forall q rest = true ->
  str_forall q (pre ++ String c rest) = true.
Proof.
  intros H1 H2 H3. rewrite str_forall_app. simpl. by rewrite H1, H2, H3.
Qed.

Lemma str_take_after_prefix (pre rest : string) (c : ascii) :
  str_take (String.length pre) (pre ++ String c rest) = pre.
Proof. induction pre as [|d pre IH]; simpl; [done|]. by rewrite IH. Qed.

Lemma plain_no_colon (s : string) :
  plain s = true -> str_forall (fun c => negb (Ascii.eqb c ":"%char)) s = true.
Proof.
  apply str_forall_impl. intros c. simpl.
  by destruct (Ascii.eqb c ":"%char).
Qed.

Lemma plain_no_cut (s : string) :
  plain s = true ->
  str_forall (fun c => negb (existsb (Ascii.eqb c) ["-"; "+"; "~"]%char)) s = true.
Proof.
  apply str_forall_impl. intros c. simpl.
  by destruct (Ascii.eqb c ":"%char).
Qed.

Lemma strip_epoch_plain (s : string) : plain s = true -> strip_epoch s = s.
Proof.
  intros H. unfold strip_epoch, index. rewrite str_forall_none; [done|].
  by apply plain_no_colon.
Qed.

Lemma strip_suffix_plain (s : string) : plain s = true -> strip_suffix s = s.
Proof.
  intros H. unfold strip_suffix, index_any. rewrite str_forall_none; [done|].
  by apply plain_no_cut.
Qed.

End MoreVersionFacts.

Section MoreVersionFacts2.

Lemma nth_map_lt {A B : Type} (f : A -> B) (l : list A) (k : nat) (d : A) (e : B) :
  (k < length l)%nat -> nth k (map f l) e = f (nth k l d).
Proof.
  revert k. induction l as [|x l IH]; intros k Hk; simpl in *; [lia|].
  destruct k; [done|]. apply IH. lia.
Qed.

Lemma split_nonempty (s : string) (sep : ascii) : split s sep <> [].
Proof.
  induction s as [|c s IH]; simpl; [done|].
  destruct (Ascii.eqb c sep); [done|]. by destruct (split s sep).
Qed.

Lemma split_getVersion (version : string) :
  split (getVersion version) "."%char =
  fix_arity (map strip_leading_zeros (map keep_digits
    (split (strip_suffix (strip_epoch version)) "."%char))).
Proof.
  destruct (getVersion_parts version) as (a & b & c & E & Ha & Hb & Hc).
  rewrite getVersion_unfold, E. apply split_join; [done|].
  repeat constructor; by apply digits_no_dot.
Qed.

End MoreVersionFacts2.

(** X1: normalising twice is normalising once, for every input. *)
Theorem getVersion_idempotent (raw : string) :
  getVersion (getVersion raw) = getVersion raw.
Proof.
  destruct (getVersion_parts_stable raw)
    as (a & b & c & E & [Ha Za] & [Hb Zb] & [Hc Zc]).
  rewrite (getVersion_unfold raw), E. by apply getVersion_fixed.
Qed.

(** X2: each component of the output is a run of zeros or starts with a
    byte other than ['0']: leading zeros are removed except from a
    component made only of zeros. *)
Theorem getVersion_components_zero_run_or_nonzero_head (raw : string) (s : string) :
  In s (split (getVersion raw) "."%char) -> zero_run_or_nonzero_head s = true.
Proof.
  rewrite split_getVersion.
  assert (H : Forall (fun x => zero_run_or_nonzero_head x = true)
                (map strip_leading_zeros (map keep_digits
                   (split (strip_suffix (strip_epoch raw)) "."%char)))).
  { apply Forall_forall. intros x Hx. apply list_elem_of_In in Hx.
    apply in_map_iff in Hx as (y & <- & _). apply zero_run_or_nonzero_head_slz. }
  destruct (fix_arity_three _ _ H eq_refl) as (a & b & c & -> & Ha & Hb & Hc).
  simpl. intros [<-|[<-|[<-|[]]]]; done.
Qed.

Lemma getVersion_components_zero_run_or_nonzero_head_witness :
  In "00" (split (getVersion "00.1.1") "."%char) /\ zero_run_or_nonzero_head "00" = true.
Proof.
  assert (H : In "00" (split (getVersion "00.1.1") "."%char)) by (simpl; auto).
  split; [exact H|]. exact (getVersion_components_zero_run_or_nonzero_head "00.1.1" "00" H).
Defined.

(** X3: the normaliser keeps the numbers: for each of the three output
    components, its decimal value is the value of the leading digits of
    the matching segment (after epoch and suffix removal), and 0 for a
    segment that is missing. *)
Theorem getVersion_component_values (raw : string) (k : nat) (Hk : (k < 3)%nat) :
  dec_value (nth k (split (getVersion raw) "."%char) "") =
  dec_value (keep_digits (nth k (split (strip_suffix (strip_epoch raw)) "."%char) "")).
Proof.
  rewrite split_getVersion, fix_arity_nth_default by done.
  rewrite !length_map.
  destruct (k <? length (split (strip_suffix (strip_epoch raw)) "."%char))%nat eqn:E.
  - apply Nat.ltb_lt in E.
    rewrite (nth_map_lt _ _ _ "") by (by rewrite length_map).
    rewrite (nth_map_lt _ _ _ "") by done.
    apply dec_value_slz.
  - apply Nat.ltb_ge in E. rewrite nth_overflow by done. reflexivity.
Qed.

Lemma getVersion_component_values_witness :
  (1 < 3)%nat /\
  dec_value (nth 1 (split (getVersion "1:007abc.0025-3") "."%char) "") =
  dec_value (keep_digits (nth 1 (split (strip_suffix (strip_epoch "1:007abc.0025-3")) "."%char) "")).
Proof.
  assert (H : (1 < 3)%nat) by lia.
  split; [exact H|]. exact (getVersion_component_values "1:007abc.0025-3" 1 H).
Defined.

(** X4: everything from the first ['-'], ['+'] or ['~'] on is ignored,
    when no [':'] follows it. *)
Theorem getVersion_ignores_suffix (pre rest : string) (c : ascii)
    (Hpre : plain pre = true) (Hc : In c ["-"; "+"; "~"]%char)
    (Hrest : str_forall (fun d => negb (Ascii.eqb d ":"%char)) rest = true) :
  getVersion (pre ++ String c rest) = getVersion pre.
Proof.
  assert (Hcol : negb (Ascii.eqb c ":"%char) = true)
    by (destruct Hc as [<-|[<-|[<-|[]]]]; reflexivity).
  assert (Hcut : existsb (Ascii.eqb c) ["-"; "+"; "~"]%char = true)
    by (destruct Hc as [<-|[<-|[<-|[]]]]; reflexivity).
  rewrite !getVersion_unfold.
  rewrite (strip_epoch_plain pre Hpre), (strip_suffix_plain pre Hpre).
  assert (He : strip_epoch (pre ++ String c rest) = pre ++ String c rest).
  { unfold strip_epoch, index. rewrite str_forall_none; [done|].
    apply str_forall_no_sep_app; [by apply plain_no_colon|done|done]. }
  rewrite He. unfold strip_suffix, index_any.
  rewrite (find_index_after_prefix _ pre rest c (plain_no_cut pre Hpre) Hcut).
  by rewrite str_take_after_prefix.
Qed.

Lemma getVersion_ignores_suffix_witness :
  plain "1.2.3" = true /\ In "-"%char ["-"; "+"; "~"]%char /\
  str_forall (fun d => negb (Ascii.eqb d ":"%char)) "1~ubuntu1" = true /\
  getVersion ("1.2.3" ++ String "-" "1~ubuntu1") = getVersion "1.2.3".
Proof.
  assert (H1 : plain "1.2.3" = true) by reflexivity.
  assert (H2 : In "-"%char ["-"; "+"; "~"]%char) by (simpl; auto).
  assert (H3 : str_forall (fun d => negb (Ascii.eqb d ":"%char)) "1~ubuntu1" = true)
    by reflexivity.
  split; [exact H1|]. split; [exact H2|]. split; [exact H3|].
  exact (getVersion_ignores_suffix "1.2.3" "1~ubuntu1" "-" H1 H2 H3).
Defined.

(** X5: an epoch prefix (text without [':'] followed by [':']) is
    ignored when the rest has no further [':']. *)
Theorem getVersion_ignores_epoch (epoch rest : string)
    (He : str_forall (fun d => negb (Ascii.eqb d ":"%char)) epoch = true)
    (Hr : str_forall (fun d => negb (Ascii.eqb d ":"%char)) rest = true) :
  getVersion (epoch ++ String ":" rest) = getVersion rest.
Proof.
  rewrite !getVersion_unfold. f_equal. f_equal. f_equal. f_equal. f_equal. f_equal.
  unfold strip_epoch, index.
  rewrite (find_index_after_prefix _ epoch rest ":"%char He) by apply Ascii.eqb_refl.
  rewrite str_drop_after_prefix. by rewrite str_forall_none.
Qed.

Lemma getVersion_ignores_epoch_witness :
  str_forall (fun d => negb (Ascii.eqb d ":"%char)) "24" = true /\
  str_forall (fun d => negb (Ascii.eqb d ":"%char)) "1.2" = true /\
  getVersion ("24" ++ String ":" "1.2") = getVersion "1.2".
Proof.
  assert (H1 : str_forall (fun d => negb (Ascii.eqb d ":"%char)) "24" = true) by reflexivity.
  assert (H2 : str_forall (fun d => negb (Ascii.eqb d ":"%char)) "1.2" = true) by reflexivity.
  split; [exact H1|]. split; [exact H2|].
  exact (getVersion_ignores_epoch "24" "1.2" H1 H2).
Defined.

Lemma plain_join_dot (a b : string) :
  plain a = true -> plain b = true -> plain (a ++ String "." b) = true.
Proof. intros Ha Hb. by apply str_forall_no_sep_app. Qed.

(** X6: only the first three ['.']-separated segments count: a fourth
    segment and everything after it are dropped. *)
Theorem getVersion_ignores_after_third_segment (a b c rest : string)
    (Ha : plain a = true) (Hb : plain b = true) (Hc : plain c = true)
    (Hr : plain rest = true)
    (Da : str_forall (fun d => negb (Ascii.eqb d "."%char)) a = true)
    (Db : str_forall (fun d => negb (Ascii.eqb d "."%char)) b = true)
    (Dc : str_forall (fun d => negb (Ascii.eqb d "."%char)) c = true) :
  getVersion (join [a; b; c; rest] "."%char) = getVersion (join [a; b; c] "."%char).
Proof.
  rewrite !getVersion_unfold.
  change (join [a; b; c; rest] "."%char)
    with (a ++ String "." (b ++ String "." (c ++ String "." rest))).
  change (join [a; b; c] "."%char) with (a ++ String "." (b ++ String "." c)).
  rewrite !strip_epoch_plain, !strip_suffix_plain by (repeat apply plain_join_dot; done).
  rewrite !split_app_sep by done.
  rewrite (split_no_sep _ c Dc).
  pose proof (split_nonempty rest "."%char) as Hne.
  destruct (split rest "."%char) as [|r rs]; [done|].
  reflexivity.
Qed.

Lemma getVersion_ignores_after_third_segment_witness :
  plain "25" = true /\ plain "2" = true /\ plain "5" = true /\ plain "1.6" = true /\
  str_forall (fun d => negb (Ascii.eqb d "."%char)) "25" = true /\
  str_forall (fun d => negb (Ascii.eqb d "."%char)) "2" = true /\
  str_forall (fun d => negb (Ascii.eqb d "."%char)) "5" = true /\
  getVersion (join ["25"; "2"; "5"; "1.6"] "."%char) = getVersion (join ["25"; "2"; "5"] "."%char).
Proof.
  assert (H1 : plain "25" = true) by reflexivity.
  assert (H2 : plain "2" = true) by reflexivity.
  assert (H3 : plain "5" = true) by reflexivity.
  assert (H4 : plain "1.6" = true) by reflexivity.
  assert (D1 : str_forall (fun d => negb (Ascii.eqb d "."%char)) "25" = true) by reflexivity.
  assert (D2 : str_forall (fun d => negb (Ascii.eqb d "."%char)) "2" = true) by reflexivity.
  assert (D3 : str_forall (fun d => negb (Ascii.eqb d "."%char)) "5" = true) by reflexivity.
  split; [exact H1|]. split; [exact H2|]. split; [exact H3|]. split; [exact H4|].
  split; [exact D1|]. split; [exact D2|]. split; [exact D3|].
  exact (getVersion_ignores_after_third_segment "25" "2" "5" "1.6" H1 H2 H3 H4 D1 D2 D3).
Defined.

(* ------------------------------------------------------------------ *)
(** ** Further properties of [getPackages] *)

Section MoreParserFacts.

Lemma line_map_lookup (m : gmap string string) (line k : string) :
  line_map m line !! k =
  match split line " "%char with
  | [n; raw] => if decide (n = k) then Some (getVersion raw) else m !! k
  | _ => m !! k
  end.
Proof.
  unfold line_map, process_line.
  destruct (String.length line =? 0)%nat eqn:E.
  - apply Nat.eqb_eq in E. destruct line; [reflexivity|discriminate].
  - destruct (split line " "%char) as [|x [|y [|z t]]]; simpl; try done.
    rewrite lookup_insert. by case_decide.
Qed.

Lemma parsed_map_lookup_none (lines : list string) (m : gmap string string) (k : string) :
  parsed_map lines m !! k = None <->
  m !! k = None /\ Forall (fun line => ~ names_entry k line) lines.
Proof.
  revert m. induction lines as [|line lines IH]; intros m.
  - simpl. split; [intros H; split; [exact H|constructor]|intros [H _]; exact H].
  - rewrite parsed_map_cons, IH, line_map_lookup, Forall_cons.
    unfold names_entry.
    destruct (split line " "%char) as [|x [|y [|z t]]]; simpl;
      try (split; [intros [H1 H2]; split; [done|split; [intros [v Hv]; discriminate|done]]
                  |intros [H1 [_ H2]]; done]).
    case_decide as Hxk.
    + subst x. split; [intros [H _]; discriminate|].
      intros [_ [Hn _]]. exfalso. apply Hn. by exists y.
    + split.
      * intros [H1 H2]. split; [done|]. split; [|done].
        intros [v [= -> _]]. done.
      * intros [H1 [_ H2]]. done.
Qed.

Lemma parsed_map_lookup_some (lines : list string) (m : gmap string string) (k v : string) :
  parsed_map lines m !! k = Some v ->
  m !! k = Some v \/
  exists line raw, In line lines /\ split line " "%char = [k; raw] /\ v = getVersion raw.
Proof.
  revert m. induction lines as [|line lines IH]; intros m H; [by left|].
  rewrite parsed_map_cons in H. apply IH in H as [H|(l & raw & Hin & Hs & Hv)].
  - rewrite line_map_lookup in H.
    destruct (split line " "%char) as [|x [|y [|z t]]] eqn:Es; try by left.
    case_decide as Hxk; [|by left].
    subst x. injection H as <-. right. exists line, y. simpl. auto.
  - right. exists l, raw. simpl. auto.
Qed.

Lemma split_pieces (q : ascii -> bool) (sep : ascii) (s p : string) :
  str_forall q s = true -> In p (split s sep) ->
  str_forall (fun c => q c && negb (Ascii.eqb c sep)) p = true.
Proof.
  revert p. induction s as [|c s IH]; intros p Hs Hin; simpl in *.
  - destruct Hin as [<-|[]]. done.
  - apply andb_true_iff in Hs as [Hc Hs].
    destruct (Ascii.eqb c sep) eqn:Ec.
    + destruct Hin as [<-|Hin]; [done|]. by apply IH.
    + destruct (split s sep) as [|h t] eqn:Es; [by destruct (split_nonempty s sep)|].
      destruct Hin as [<-|Hin].
      * simpl. rewrite Hc, Ec. simpl. apply IH; [done|]. by left.
      * apply IH; [done|]. by right.
Qed.

Lemma line_map_size (m : gmap string string) (line : string) :
  (size (line_map m line) <= size m + (if good_line line then 1 else 0))%nat.
Proof.
  unfold line_map, process_line, good_line.
  destruct (String.length line =? 0)%nat eqn:E.
  - simpl. destruct (length _ =? 2)%nat; lia.
  - destruct (split line " "%char) as [|x [|y [|z t]]]; simpl; try lia.
    rewrite map_size_insert. destruct (m !! x); simpl; lia.
Qed.

Lemma line_names_length (lines : list string) :
  length (line_names lines) = length (List.filter good_line lines).
Proof.
  induction lines as [|line lines IH]; [done|].
  unfold line_names in *. simpl. unfold good_line at 1.
  destruct (split line " "%char) as [|x [|y [|z t]]]; simpl;
    first [exact IH | apply (f_equal S); exact IH].
Qed.

Lemma parsed_map_size_le (lines : list string) (m : gmap string string) :
  (size (parsed_map lines m) <= size m + length (List.filter good_line lines))%nat.
Proof.
  revert m. induction lines as [|line lines IH]; intros m; [simpl; lia|].
  rewrite parsed_map_cons. etransitivity; [apply IH|].
  pose proof (line_map_size m line).
  cbn [List.filter]. destruct (good_line line); simpl; lia.
Qed.

Lemma line_names_cons (line : string) (lines : list string) :
  line_names (line :: lines) =
  match split line " "%char with
  | [n; _] => n :: line_names lines
  | _ => line_names lines
  end.
Proof.
  unfold line_names. simpl.
  by destruct (split line " "%char) as [|x [|y [|z t]]].
Qed.

Lemma parsed_map_size_eq (lines : list string) (m : gmap string string) :
  NoDup (line_names lines) ->
  (forall n, In n (line_names lines) -> m !! n = None) ->
  size (parsed_map lines m) = (size m + length (line_names lines))%nat.
Proof.
  revert m. induction lines as [|line lines IH]; intros m Hnd Hfresh; [simpl; lia|].
  rewrite parsed_map_cons.
  rewrite line_names_cons in Hnd, Hfresh |- *.
  unfold line_map, process_line.
  destruct (String.length line =? 0)%nat eqn:E.
  - apply Nat.eqb_eq in E. destruct line; [|discriminate]. simpl in *. by apply IH.
  - destruct (split line " "%char) as [|x [|y [|z t]]] eqn:Es;
      try (by apply IH).
    cbn [fst].
    apply NoDup_cons in Hnd as [Hx Hnd].
    rewrite IH; [| done |].
    + rewrite map_size_insert, (Hfresh x (or_introl eq_refl)). simpl. lia.
    + intros n Hn. rewrite lookup_insert_ne.
      * apply Hfresh. by right.
      * intros ->. apply Hx. by apply list_elem_of_In.
Qed.

Lemma fold_process_line_logs (lines : list string) (m : gmap string string)
    (logs : list log_entry) :
  (fold_left process_line lines (m, logs)).2 =
  app logs (map warning_of (List.filter bad_line lines)).
Proof.
  revert m logs. induction lines as [|line lines IH]; intros m logs; cbn [fold_left].
  - simpl. by rewrite app_nil_r.
  - cbn [List.filter]. unfold process_line at 2. unfold bad_line at 1.
    destruct (String.length line =? 0)%nat eqn:E; cbn -[bad_line].
    + apply IH.
    + destruct (split line " "%char) as [|x [|y [|z t]]]; cbn -[bad_line];
        rewrite IH; rewrite <- ?app_assoc; done.
Qed.

Lemma getPackages_logs (packageData : string) :
  (getPackages packageData).2 = map warning_of (List.filter bad_line (split packageData "010"%char)).
Proof.
  transitivity ((fold_left process_line (split packageData "010"%char) (∅, [])).2).
  - unfold getPackages, parse_lines. by destruct (fold_left _ _ _).
  - by rewrite fold_process_line_logs.
Qed.

Lemma split_app (sep : ascii) (a b : string) :
  split (a ++ String sep b) sep = app (split a sep) (split b sep).
Proof.
  induction a as [|c a IH]; simpl.
  - by rewrite Ascii.eqb_refl.
  - destruct (Ascii.eqb c sep); simpl; [by rewrite IH|].
    rewrite IH. destruct (split a sep) as [|h t] eqn:E; [by destruct (split_nonempty a sep)|].
    reflexivity.
Qed.

Lemma line_map_union (m1 m2 : gmap string string) (line : string) :
  line_map (m1 ∪ m2) line = line_map m1 line ∪ m2.
Proof.
  unfold line_map, process_line.
  destruct (String.length line =? 0)%nat; [done|].
  destruct (split line " "%char) as [|x [|y [|z t]]]; simpl; try done.
  apply insert_union_l.
Qed.

Lemma parsed_map_union (lines : list string) (m1 m2 : gmap string string) :
  parsed_map lines (m1 ∪ m2) = parsed_map lines m1 ∪ m2.
Proof.
  revert m1. induction lines as [|line lines IH]; intros m1; [done|].
  rewrite !parsed_map_cons, line_map_union. apply IH.
Qed.

End MoreParserFacts.

(** X7: a package name is absent from the map exactly when no line of the
    text has the two tokens [name rawVersion]; a name that is present comes
    from such a line, with [getVersion rawVersion] as its value. *)
Theorem getPackages_lookup (packageData k : string) :
  ((getPackages packageData).1.1 !! k = None <->
   Forall (fun line => ~ names_entry k line) (split packageData "010"%char)) /\
  (forall v, (getPackages packageData).1.1 !! k = Some v ->
   exists line raw, In line (split packageData "010"%char) /\
     split line " "%char = [k; raw] /\ v = getVersion raw).
Proof.
  rewrite getPackages_map. split.
  - rewrite parsed_map_lookup_none. rewrite lookup_empty. tauto.
  - intros v Hv. apply parsed_map_lookup_some in Hv as [Hv|Hv]; [|exact Hv].
    by rewrite lookup_empty in Hv.
Qed.

Lemma str_forall_true (s : string) : str_forall (fun _ => true) s = true.
Proof. induction s as [|c s IH]; simpl; [done|exact IH]. Qed.

(** X8: every key of the map contains no space and no newline byte. *)
Theorem getPackages_keys_are_tokens (packageData k v : string)
    (Hk : (getPackages packageData).1.1 !! k = Some v) :
  token k.
Proof.
  destruct (proj2 (getPackages_lookup packageData k) v Hk)
    as (line & raw & Hin & Hs & _).
  pose proof (split_pieces (fun _ => true) "010"%char packageData line
                (str_forall_true packageData) Hin) as Hline.
  assert (Hink : In k (split line " "%char)) by (rewrite Hs; by left).
  pose proof (split_pieces _ " "%char line k Hline Hink) as Hkey.
  unfold token. eapply str_forall_impl; [|exact Hkey].
  intros c. cbn.
  destruct (Ascii.eqb c "010"%char), (Ascii.eqb c " "%char); done.
Qed.

Lemma getPackages_keys_are_tokens_witness :
  (getPackages e2e_text).1.1 !! "wget" = Some "1.20.3" /\ token "wget".
Proof.
  assert (H : (getPackages e2e_text).1.1 !! "wget" = Some "1.20.3") by reflexivity.
  split; [exact H|]. exact (getPackages_keys_are_tokens e2e_text "wget" "1.20.3" H).
Defined.

(** X9: the map has at most one entry per line of two tokens, and exactly
    one per such line when their package names are pairwise distinct. *)
Theorem getPackages_size (packageData : string) :
  (size (getPackages packageData).1.1 <=
     length (List.filter good_line (split packageData "010"%char)))%nat /\
  (NoDup (line_names (split packageData "010"%char)) ->
   size (getPackages packageData).1.1 =
     length (List.filter good_line (split packageData "010"%char))).
Proof.
  rewrite getPackages_map. split.
  - pose proof (parsed_map_size_le (split packageData "010"%char) ∅) as H.
    rewrite map_size_empty in H. exact H.
  - intros Hnd. rewrite parsed_map_size_eq; [|done|].
    + by rewrite map_size_empty, line_names_length.
    + intros n _. apply lookup_empty.
Qed.

(** X10: the log of [getPackages] holds one warning per non-empty line that
    is not two tokens, in the order of the lines, and nothing else. *)
Theorem getPackages_warnings (packageData : string) :
  (getPackages packageData).2 =
  map warning_of (List.filter bad_line (split packageData "010"%char)).
Proof. apply getPackages_logs. Qed.

(** X11: parsing two listings joined by a newline gives the map of the
    second one over the map of the first (its entries win on shared
    names), and the warnings of the first followed by those of the
    second. *)
Theorem getPackages_app (a b : string) :
  (getPackages (a ++ String "010" b)).1.1 = (getPackages b).1.1 ∪ (getPackages a).1.1 /\
  (getPackages (a ++ String "010" b)).2 = app (getPackages a).2 (getPackages b).2.
Proof.
  split.
  - rewrite !getPackages_map, split_app, parsed_map_app.
    rewrite <- (left_id_L ∅ (∪) (parsed_map (split a "010"%char) ∅)) at 1.
    apply parsed_map_union.
  - rewrite !getPackages_logs, split_app, List.filter_app. apply map_app.
Qed.

(** X12: the text [dpkg-query] writes to stderr never changes the map,
    the steps or the error [GetInstalledPackages] returns; it only goes to
    the log. *)
Theorem GetInstalledPackages_stderr_only_logged (code : Z) (out err1 err2 : string) :
  (GetInstalledPackages (mkProc code out err1)).1 =
  (GetInstalledPackages (mkProc code out err2)).1.
Proof.
  unfold GetInstalledPackages, run_error. simpl.
  destruct (Z.eqb code 0); [|reflexivity].
  destruct (getPackages out) as [[pk st] pl]. reflexivity.
Qed.

(** X13: when [dpkg-query] exits with a non-zero status its stdout is
    ignored: the whole result, log included, does not depend on it. *)
Theorem GetInstalledPackages_failure_ignores_stdout (code : Z) (out1 out2 err : string)
    (Hcode : code <> 0%Z) :
  GetInstalledPackages (mkProc code out1 err) = GetInstalledPackages (mkProc code out2 err).
Proof.
  unfold GetInstalledPackages, run_error. simpl.
  apply Z.eqb_neq in Hcode. by rewrite Hcode.
Qed.

Lemma GetInstalledPackages_failure_ignores_stdout_witness :
  (2 <> 0)%Z /\
  GetInstalledPackages (mkProc 2 "wget 1.20.3" "") = GetInstalledPackages (mkProc 2 "" "").
Proof.
  assert (H : (2 <> 0)%Z) by lia.
  split; [exact H|]. exact (GetInstalledPackages_failure_ignores_stdout 2 "wget 1.20.3" "" "" H).
Defined.

Example real_examples_parsed :
  let res := getPackages (join real_examples "010"%char) in
  size res.1.1 = 29%nat /\
  res.1.1 !! "adduser" = Some "3.137.0" /\
  res.1.1 !! "libcairo-gobject-perl" = Some "1.5.0" /\
  res.1.1 !! "libdbusmenu-glib4" = Some "18.10.20180917" /\
  res.1.1 !! "libplymouth5" = Some "24.4.60" /\
  res.1.1 !! "nvidia-driver-550" = Some "550.144.3" /\
  res.1.1 !! "printer-driver-foo2zjs" = Some "20200505.0.0" /\
  res.1.2 = [{| step_title := "Retrieved all installed packages and normalised versions";
                step_description := step_description (hd first_step res.1.2);
                step_remarks := Some "Normalized 29 package versions" |}].
Proof. vm_compute. repeat split; reflexivity. Qed.
